(** * turingclaw: the SSH remote manager and its mock responder

    A shallow embedding of [workspace/skills/remote_mgr.py] and
    [workspace/skills/mock_ssh.py], and the properties of their
    specification proved (or refuted) on it.

    Python values are modelled as the code uses them:
    - a [str] is a list of Unicode code points ([pystr]);
    - an [int] is a [Z];
    - the result dictionary of [run_ssh_command] is a finite map from
      its string keys to Python values;
    - [subprocess.run] is an oracle of the environment that either
      returns a completed process or raises an exception;
    - [print] appends to the standard output, [sys.exit] and uncaught
      exceptions end the control flow.

    The specification's field names map to the dictionary keys of the
    code as: success = "success", standard_output = "stdout",
    standard_error = "stderr", exit_code = "returncode". *)

From Stdlib Require Import ZArith NArith List String Ascii Bool Lia.
From Stdlib Require Import DecimalString.
From stdpp Require Import base gmap strings list.
Import ListNotations.

Local Open Scope Z_scope.
Local Open Scope list_scope.

(* ===================================================================== *)
(** ** Python strings *)
(* ===================================================================== *)

Module PyStr.

(** A Python [str]: a sequence of Unicode code points. *)
Definition pystr : Type := list N.

(** The code points of an ASCII source literal. *)
Definition lit (s : string) : pystr :=
  List.map N_of_ascii (list_ascii_of_string s).
Arguments lit s%_string : simpl never.

(** [str.isspace] on one code point: the characters CPython's
    [str.strip()] removes when called without argument. *)
Definition isspace (c : N) : bool :=
  (((0x09 <=? c) && (c <=? 0x0D)) ||
  ((0x1C <=? c) && (c <=? 0x20)) ||
  (c =? 0x85) || (c =? 0xA0) || (c =? 0x1680) ||
  ((0x2000 <=? c) && (c <=? 0x200A)) ||
  (c =? 0x2028) || (c =? 0x2029) || (c =? 0x202F) ||
  (c =? 0x205F) || (c =? 0x3000))%N.

(** [s.lstrip()] *)
Fixpoint lstrip (s : pystr) : pystr :=
  match s with
  | [] => []
  | c :: s' => if isspace c then lstrip s' else s
  end.

(** [s.rstrip()] *)
Definition rstrip (s : pystr) : pystr := reverse (lstrip (reverse s)).

(** [s.strip()] *)
Definition strip (s : pystr) : pystr := rstrip (lstrip s).

(** What the specification calls "leading and trailing whitespace
    stripped": [t] is [s] without a prefix and a suffix made of whitespace
    only, and [t] neither starts nor ends with whitespace. *)
Definition stripped_of (s t : pystr) : Prop :=
  (exists l r, s = l ++ t ++ r /\
               forallb isspace l = true /\ forallb isspace r = true) /\
  (forall c, head t = Some c -> isspace c = false) /\
  (forall c, last t = Some c -> isspace c = false).

(** [sep.join(parts)], used for [print] with several arguments. *)
Fixpoint join (sep : pystr) (parts : list pystr) : pystr :=
  match parts with
  | [] => []
  | [p] => p
  | p :: ps => p ++ sep ++ join sep ps
  end.

End PyStr.
Export PyStr.

(* ===================================================================== *)
(** ** Python values, exceptions and control flow *)
(* ===================================================================== *)

Module Py.

Inductive pyval : Type :=
| VNone
| VBool (b : bool)
| VInt (z : Z)
| VStr (s : pystr).

(** Truth value testing, as [if v:] does it. *)
Definition truthy (v : pyval) : bool :=
  match v with
  | VNone => false
  | VBool b => b
  | VInt z => negb (z =? 0)
  | VStr s => negb (Nat.eqb (length s) 0)
  end.

(** An optional argument whose default is [None]. *)
Definition of_optional (o : option pystr) : pyval :=
  match o with
  | None => VNone
  | Some s => VStr s
  end.

(** The exception classes that matter to [subprocess.run] and to the
    handlers of [run_ssh_command]. Any other class behaves, for the two
    handlers, like one of these: it derives from [TimeoutExpired], from
    [Exception] only, or from [BaseException] only. [SystemExit] is the
    [Exit] outcome of [ctl] below. *)
Inductive pyclass : Type :=
| BaseException
| Exception
| KeyboardInterrupt
| SubprocessError
| TimeoutExpired
| OSError
| FileNotFoundError
| PermissionError
| ValueError
| UnicodeError
| UnicodeDecodeError
| TypeError
| MemoryError
| IndexError
| KeyError.

Definition pyclass_eqb (a b : pyclass) : bool :=
  match a, b with
  | BaseException, BaseException | Exception, Exception
  | KeyboardInterrupt, KeyboardInterrupt
  | SubprocessError, SubprocessError | TimeoutExpired, TimeoutExpired
  | OSError, OSError | FileNotFoundError, FileNotFoundError
  | PermissionError, PermissionError | ValueError, ValueError
  | UnicodeError, UnicodeError
  | UnicodeDecodeError, UnicodeDecodeError | TypeError, TypeError
  | MemoryError, MemoryError | IndexError, IndexError
  | KeyError, KeyError => true
  | _, _ => false
  end.

(** The direct base class, as Python declares it ([None] at the root). *)
Definition base_of (c : pyclass) : option pyclass :=
  match c with
  | BaseException => None
  | Exception | KeyboardInterrupt => Some BaseException
  | SubprocessError | OSError | ValueError | TypeError | MemoryError
  | IndexError | KeyError => Some Exception
  | TimeoutExpired => Some SubprocessError
  | FileNotFoundError | PermissionError => Some OSError
  | UnicodeError => Some ValueError
  | UnicodeDecodeError => Some UnicodeError
  end.

(** [issubclass c d], walking up the chain of base classes; the longest
    chain above has four steps. *)
Fixpoint issubclass_fuel (fuel : nat) (c d : pyclass) : bool :=
  pyclass_eqb c d ||
  match fuel, base_of c with
  | S fuel', Some b => issubclass_fuel fuel' b d
  | _, _ => false
  end.

Definition issubclass (c d : pyclass) : bool := issubclass_fuel 4 c d.

(** A raised exception: its class and what [str(e)] returns. *)
Record pyexc : Type := MkExc { exc_class : pyclass; exc_str : pystr }.

Definition isinstance (e : pyexc) (c : pyclass) : bool :=
  issubclass (exc_class e) c.

(** How a piece of Python code ends: it returns a value, an exception
    propagates out of it, or [sys.exit(code)] unwinds it. *)
Inductive ctl (A : Type) : Type :=
| Ret (a : A)
| Raise (e : pyexc)
| Exit (code : pyval).
Arguments Ret {A} a.
Arguments Raise {A} e.
Arguments Exit {A} code.

Definition ctl_bind {A B : Type} (c : ctl A) (k : A -> ctl B) : ctl B :=
  match c with
  | Ret a => k a
  | Raise e => Raise e
  | Exit code => Exit code
  end.

(** [try: body  except C1 as e: h1  except C2 as e: h2 ...]: the first
    handler whose class the exception is an instance of runs; with no
    such handler the exception propagates. [sys.exit] is not an
    [Exception] and passes through the handlers used here. *)
Definition try_except {A : Type} (body : ctl A)
    (handlers : list (pyclass * (pyexc -> ctl A))) : ctl A :=
  match body with
  | Raise e =>
      match List.find (fun h => isinstance e (fst h)) handlers with
      | Some h => snd h e
      | None => Raise e
      end
  | other => other
  end.

(** A dictionary with string keys. *)
Abbreviation dict := (gmap string pyval).

(** [d[k]] *)
Definition getitem (d : dict) (k : string) : ctl pyval :=
  match d !! k with
  | Some v => Ret v
  | None => Raise (MkExc KeyError (lit k))
  end.

(** [l[i]] for a non-negative index. *)
Definition index (l : list pystr) (i : nat) : ctl pystr :=
  match l !! i with
  | Some x => Ret x
  | None => Raise (MkExc IndexError (lit "list index out of range"))
  end.

(** [str(n)] for an [int]. *)
Definition str_of_int (n : Z) : pystr :=
  lit (DecimalString.NilZero.string_of_int (Z.to_int n)).

(** [str(v)], as an f-string or [print] formats a value. *)
Definition str (v : pyval) : pystr :=
  match v with
  | VNone => lit "None"
  | VBool true => lit "True"
  | VBool false => lit "False"
  | VInt n => str_of_int n
  | VStr s => s
  end.

End Py.
Export Py.

(* ===================================================================== *)
(** ** Standard output and process termination *)
(* ===================================================================== *)

Module IO.

(** The standard output: one entry per [print] call, holding the text
    written before the newline that [print] appends. *)
Definition stdout : Type := list pystr.

(** The characters written to the stream. *)
Definition rendered (out : stdout) : pystr :=
  List.concat (List.map (fun s => s ++ [10%N]) out).

(** The number of line breaks in a text. *)
Definition newlines (s : pystr) : nat := count_occ N.eq_dec s 10%N.

(** A script: it threads the standard output and ends as [ctl] says. *)
Definition io (A : Type) : Type := stdout -> ctl A * stdout.

Definition ret {A : Type} (a : A) : io A := fun out => (Ret a, out).

Definition bind {A B : Type} (m : io A) (k : A -> io B) : io B :=
  fun out =>
    match m out with
    | (Ret a, out') => k a out'
    | (Raise e, out') => (Raise e, out')
    | (Exit code, out') => (Exit code, out')
    end.

Definition lift {A : Type} (c : ctl A) : io A := fun out => (c, out).

(** [print(a, b, ...)]: the arguments joined by one space. The stream
    is taken to accept every write: a closed pipe or a character the
    stream cannot encode, which make the real [print] raise, are outside
    this model. *)
Definition print (args : list pystr) : io unit :=
  fun out => (Ret tt, out ++ [join (lit " ") args]).

(** [sys.exit(code)] *)
Definition sys_exit {A : Type} (code : pyval) : io A :=
  fun out => (Exit code, out).

Declare Scope py_scope.
Delimit Scope py_scope with py.
Notation "x <- c ;; k" := (bind c (fun x => k))
  (at level 100, c at next level, right associativity) : py_scope.
Notation "c ;; k" := (bind c (fun _ => k))
  (at level 100, right associativity) : py_scope.

(** The exit status the interpreter hands to the operating system's
    exit call: 0 when the script falls off its end, the argument of
    [sys.exit] when it is an [int] ([None] counts as 0, any other
    object is printed and gives 1), and 1 after an uncaught exception.
    An uncaught [KeyboardInterrupt] is the exception: the interpreter
    then ends the process through the interrupt signal, which a shell
    reports as 130. *)
Definition exit_status (c : ctl unit) : Z :=
  match c with
  | Ret _ => 0
  | Exit VNone => 0
  | Exit (VInt n) => n
  | Exit (VBool b) => if b then 1 else 0
  | Exit (VStr _) => 1
  | Raise e => if isinstance e KeyboardInterrupt then 130 else 1
  end.

(** What an observer of the process sees. *)
Record observed : Type := Observed { printed : stdout; status : Z }.

Definition run_script (main : io unit) : observed :=
  let '(c, out) := main [] in Observed out (exit_status c).

End IO.
Export IO.

(* ===================================================================== *)
(** ** workspace/skills/remote_mgr.py *)
(* ===================================================================== *)

Module RemoteMgr.

(** The [CompletedProcess] that [subprocess.run] returns. *)
Record completed_process : Type := Completed {
  returncode : Z;
  cp_stdout : pystr;
  cp_stderr : pystr
}.

(** How one call of [subprocess.run] ends: it returns the completed
    process or raises. *)
Inductive run_outcome : Type :=
| Returned (result : completed_process)
| Raised (e : pyexc).

Definition as_ctl (o : run_outcome) : ctl completed_process :=
  match o with
  | Returned result => Ret result
  | Raised e => Raise e
  end.

(** What the spawned client itself does during one call: it exits with
    a code, leaving the bytes it wrote to its two streams; it is still
    running when the timeout expires; or the call fails with an
    exception of its own (no client to spawn, an interrupt). *)
Inductive child_outcome : Type :=
| Exited (code : Z) (out err : list N)
| Outlived
| Broke (e : pyexc).

(** A strict text codec, as [text=True] applies it to a captured
    stream: the decoded text, or what [str] gives for the
    [UnicodeDecodeError]. *)
Definition codec : Type := list N -> pystr + pystr.

(** The first byte outside ASCII, with its position. *)
Fixpoint first_non_ascii (pos : nat) (bs : list N) : option (nat * N) :=
  match bs with
  | [] => None
  | b :: bs' =>
      if (b <? 128)%N then first_non_ascii (S pos) bs' else Some (pos, b)
  end.

(** Two lower-case hexadecimal digits, as ["%02x"] prints a byte. *)
Definition hex_digit (d : N) : N :=
  if (d <? 10)%N then (48 + d)%N else (87 + d)%N.

Definition hex_byte (b : N) : pystr :=
  [hex_digit (b / 16); hex_digit (b mod 16)].

(** The ASCII codec of a C locale. *)
Definition decode_ascii : codec := fun bs =>
  match first_non_ascii 0 bs with
  | None => inl bs
  | Some (pos, b) =>
      inr (lit "'ascii' codec can't decode byte 0x" ++ hex_byte b ++
           lit " in position " ++ str_of_int (Z.of_nat pos) ++
           lit ": ordinal not in range(128)")
  end.

(** [subprocess.run(..., capture_output=True, text=True, timeout=t)] on
    top of what the child did: a child that exits gives a completed
    process only if both captured streams decode; otherwise the
    decoding error is raised, whatever the exit code was. *)
Definition run_text (decode : codec) (c : child_outcome) : run_outcome :=
  match c with
  | Exited code out err =>
      match decode out with
      | inr message => Raised (MkExc UnicodeDecodeError message)
      | inl o =>
          match decode err with
          | inr message => Raised (MkExc UnicodeDecodeError message)
          | inl e => Returned (Completed code o e)
          end
      end
  | Outlived => Raised (MkExc TimeoutExpired (lit "timed out"))
  | Broke e => Raised e
  end.

(** Lines 11 to 17: the argument vector handed to [subprocess.run]. *)
Definition ssh_argv (host user command : pystr)
    (key_file : option pystr) : list pystr :=
  let ssh_cmd :=
    [lit "ssh"; lit "-o"; lit "StrictHostKeyChecking=no";
     lit "-o"; lit "BatchMode=yes"] in
  let ssh_cmd :=
    match key_file with
    | Some k =>
        if truthy (of_optional key_file)
        then ssh_cmd ++ [lit "-i"; k]
        else ssh_cmd
    | None => ssh_cmd
    end in
  let ssh_cmd := ssh_cmd ++ [user ++ lit "@" ++ host] in
  ssh_cmd ++ [command].

(** The three dictionaries the function can return. *)
Definition completed_result (result : completed_process) : dict :=
  <["success" := VBool (returncode result =? 0)]>
  (<["stdout" := VStr (strip (cp_stdout result))]>
  (<["stderr" := VStr (strip (cp_stderr result))]>
  (<["returncode" := VInt (returncode result)]> ∅))).

Definition timeout_result : dict :=
  <["success" := VBool false]>
  (<["stdout" := VStr (lit "")]>
  (<["stderr" := VStr (lit "Connection timed out.")]>
  (<["returncode" := VInt (-1)]> ∅))).

Definition failure_result (e : pyexc) : dict :=
  <["success" := VBool false]>
  (<["stdout" := VStr (lit "")]>
  (<["stderr" := VStr (exc_str e)]>
  (<["returncode" := VInt (-1)]> ∅))).

Section WithSubprocess.

(** [subprocess.run(argv, capture_output=True, text=True, timeout=t)]:
    what the environment answers to one spawn. It returns the completed
    process, or raises: [TimeoutExpired] when the child outlives [t]
    seconds, another exception when the spawn or the decoding fails, a
    [KeyboardInterrupt] when the user interrupts the wait. *)
Variable subprocess_run : list pystr -> Z -> run_outcome.

(** Lines 7 to 40. *)
Definition run_ssh_command (host user command : pystr)
    (key_file : option pystr) : ctl dict :=
  let ssh_cmd := ssh_argv host user command key_file in
  try_except
    (ctl_bind (as_ctl (subprocess_run ssh_cmd 30)) (fun result =>
     Ret (completed_result result)))
    [ (TimeoutExpired, fun _ => Ret timeout_result);
      (Exception, fun e => Ret (failure_result e)) ].

(** The [Namespace] that [parser.parse_args()] returns: two positional
    arguments, [--user] with default "root", [--key] with default
    [None]. *)
Record namespace : Type := Namespace {
  host : pystr;
  command : pystr;
  user : pystr;
  key : option pystr
}.

Local Open Scope py_scope.

(** Lines 51 to 63: the script after argument parsing. *)
Definition cli_main (args : namespace) : io unit :=
  print [lit "[TuringClaw] Connecting to " ++ user args ++ lit "@" ++
         host args ++ lit "..."] ;;
  result <- lift (run_ssh_command (host args) (user args) (command args)
                    (key args)) ;;
  success <- lift (getitem result "success") ;;
  if truthy success then
    print [lit "[SUCCESS] Command executed on " ++ host args ++
           lit ":" ++ [10%N]] ;;
    out <- lift (getitem result "stdout") ;;
    print [str out]
  else
    code <- lift (getitem result "returncode") ;;
    print [lit "[ERROR] Failed to execute command on " ++ host args ++
           lit " (Code: " ++ str code ++ lit "):" ++ [10%N]] ;;
    out <- lift (getitem result "stdout") ;;
    (if truthy out then print [lit "STDOUT:"; str out] else ret tt) ;;
    err <- lift (getitem result "stderr") ;;
    (if truthy err then print [lit "STDERR:"; str err] else ret tt) ;;
    code <- lift (getitem result "returncode") ;;
    sys_exit code.

End WithSubprocess.

(** The keys of an Execution Result. *)
Definition result_fields : gset string :=
  {[ "success"; "stdout"; "stderr"; "returncode" ]}.

(** The invocation as the specification words it: the identity-file
    option whenever a key path is supplied. *)
Definition spec_ssh_argv (host user command : pystr)
    (key_path : option pystr) : list pystr :=
  [lit "ssh"; lit "-o"; lit "StrictHostKeyChecking=no";
   lit "-o"; lit "BatchMode=yes"] ++
  match key_path with
  | Some k => [lit "-i"; k]
  | None => []
  end ++
  [user ++ lit "@" ++ host; command].

(** An environment in which every spawn ends the same way. *)
Definition always (o : run_outcome) : list pystr -> Z -> run_outcome :=
  fun _ _ => o.

End RemoteMgr.

(* ===================================================================== *)
(** ** workspace/skills/mock_ssh.py *)
(* ===================================================================== *)

Module MockSsh.

Local Open Scope py_scope.

Definition usage : pystr := lit "Usage: python mock_ssh.py <host> <cmd>".

Definition uptime_report : pystr :=
  lit " 10:00:00 up 10 days,  2:30,  1 user,  load average: 0.00, 0.01, 0.05".

Definition generic_report : pystr := lit "Command executed successfully.".

Definition connection_banner (host : pystr) : pystr :=
  lit "[SSH Connected to " ++ host ++ lit "]".

Definition execution_banner (cmd : pystr) : pystr :=
  lit "[Executing]: " ++ cmd.

(** Lines 4 to 19; [sys_argv] is [sys.argv], the script name first. *)
Definition main (sys_argv : list pystr) : io unit :=
  (if (length sys_argv <? 3)%nat
   then print [usage] ;; sys_exit (VInt 1)
   else ret tt) ;;
  host <- lift (index sys_argv 1) ;;
  cmd <- lift (index sys_argv 2) ;;
  print [connection_banner host] ;;
  print [execution_banner cmd] ;;
  if bool_decide (cmd = lit "uptime")
  then print [uptime_report]
  else print [generic_report].

End MockSsh.

(* ===================================================================== *)
(** ** Properties of [strip] *)
(* ===================================================================== *)

Section StripFacts.

Lemma lstrip_split (s : pystr) :
  exists l, s = l ++ lstrip s /\ forallb isspace l = true.
Proof.
  induction s as [|c s IH]; simpl.
  - exists []. split; reflexivity.
  - destruct (isspace c) eqn:Hc.
    + destruct IH as (l & Hs & Hl). exists (c :: l). simpl.
      rewrite Hc, Hl. split; [congruence | reflexivity].
    + exists []. split; reflexivity.
Qed.

Lemma lstrip_head (s : pystr) (c : N) :
  head (lstrip s) = Some c -> isspace c = false.
Proof.
  induction s as [|a s IH]; simpl; [discriminate|].
  destruct (isspace a) eqn:Ha; [exact IH|].
  simpl. intros [= <-]. exact Ha.
Qed.

Lemma forallb_reverse (f : N -> bool) (l : pystr) :
  forallb f l = true -> forallb f (reverse l) = true.
Proof.
  rewrite !forallb_forall. intros H x Hx. apply H.
  rewrite <- list_elem_of_In in Hx |- *. by apply elem_of_reverse.
Qed.

Lemma rstrip_split (s : pystr) :
  exists r, s = rstrip s ++ r /\ forallb isspace r = true.
Proof.
  unfold rstrip. destruct (lstrip_split (reverse s)) as (l & Hs & Hl).
  exists (reverse l). split; [|by apply forallb_reverse].
  rewrite <- reverse_app, <- Hs. by rewrite reverse_involutive.
Qed.

Lemma rstrip_last (s : pystr) (c : N) :
  last (rstrip s) = Some c -> isspace c = false.
Proof. unfold rstrip. rewrite last_reverse. apply lstrip_head. Qed.

Lemma rstrip_head (s : pystr) (c : N) :
  head (rstrip s) = Some c -> head s = Some c.
Proof.
  destruct (rstrip_split s) as (r & Hs & _). intros Hc.
  rewrite Hs. apply head_app_Some. by left.
Qed.

(** [str.strip()] removes exactly the leading and the trailing
    whitespace. *)
Lemma strip_stripped_of (s : pystr) : stripped_of s (strip s).
Proof.
  unfold stripped_of, strip. split; [|split].
  - destruct (lstrip_split s) as (l & Hl & Hwl).
    destruct (rstrip_split (lstrip s)) as (r & Hr & Hwr).
    exists l, r. split; [|by split].
    rewrite <- Hr. exact Hl.
  - intros c Hc. apply rstrip_head in Hc. by apply lstrip_head in Hc.
  - apply rstrip_last.
Qed.

(** Stripping a string that is already stripped changes nothing. *)
Lemma lstrip_id (s : pystr) :
  (forall c, head s = Some c -> isspace c = false) -> lstrip s = s.
Proof.
  destruct s as [|a s]; [reflexivity|]. intros H. simpl.
  by rewrite (H a eq_refl).
Qed.

Lemma strip_idempotent (s : pystr) : strip (strip s) = strip s.
Proof.
  destruct (strip_stripped_of s) as (_ & Hh & Hl).
  unfold strip at 1. rewrite (lstrip_id (strip s) Hh).
  unfold rstrip. rewrite lstrip_id.
  - apply reverse_involutive.
  - intros c. rewrite head_reverse. apply Hl.
Qed.

End StripFacts.

(* ===================================================================== *)
(** ** The exception hierarchy *)
(* ===================================================================== *)

Section ClassFacts.

(** Every class derives from [BaseException]: the walk up the base
    classes never runs out of steps. *)
Lemma issubclass_BaseException (c : pyclass) :
  issubclass c BaseException = true.
Proof. destruct c; reflexivity. Qed.

Lemma issubclass_refl (c : pyclass) : issubclass c c = true.
Proof. destruct c; reflexivity. Qed.

Lemma issubclass_trans (a b c : pyclass) :
  issubclass a b = true -> issubclass b c = true -> issubclass a c = true.
Proof.
  destruct a, b; try discriminate; destruct c;
    (reflexivity || discriminate).
Qed.

(** A timeout is an [Exception]; so what is not an [Exception] is not a
    timeout. *)
Lemma timeout_is_Exception (e : pyexc) :
  isinstance e TimeoutExpired = true -> isinstance e Exception = true.
Proof.
  unfold isinstance. intros H.
  apply (issubclass_trans _ TimeoutExpired); [exact H | reflexivity].
Qed.

Lemma not_Exception_not_timeout (e : pyexc) :
  isinstance e Exception = false -> isinstance e TimeoutExpired = false.
Proof.
  intros H. destruct (isinstance e TimeoutExpired) eqn:Ht; [|reflexivity].
  apply timeout_is_Exception in Ht. congruence.
Qed.

End ClassFacts.

(* ===================================================================== *)
(** ** run_ssh_command, branch by branch *)
(* ===================================================================== *)

Module RemoteMgrSpec.
Import RemoteMgr.

Section WithSubprocess.

Variable subprocess_run : list pystr -> Z -> run_outcome.

Lemma run_completed host user command key_file result :
  subprocess_run (ssh_argv host user command key_file) 30 = Returned result ->
  run_ssh_command subprocess_run host user command key_file =
    Ret (completed_result result).
Proof. intros H. unfold run_ssh_command. by rewrite H. Qed.

Lemma run_timeout host user command key_file e :
  subprocess_run (ssh_argv host user command key_file) 30 = Raised e ->
  isinstance e TimeoutExpired = true ->
  run_ssh_command subprocess_run host user command key_file =
    Ret timeout_result.
Proof.
  intros H Ht. unfold run_ssh_command. rewrite H. simpl. by rewrite Ht.
Qed.

Lemma run_failure host user command key_file e :
  subprocess_run (ssh_argv host user command key_file) 30 = Raised e ->
  isinstance e TimeoutExpired = false ->
  isinstance e Exception = true ->
  run_ssh_command subprocess_run host user command key_file =
    Ret (failure_result e).
Proof.
  intros H Ht He. unfold run_ssh_command. rewrite H. simpl.
  by rewrite Ht, He.
Qed.

Lemma run_propagates host user command key_file e :
  subprocess_run (ssh_argv host user command key_file) 30 = Raised e ->
  isinstance e Exception = false ->
  run_ssh_command subprocess_run host user command key_file = Raise e.
Proof.
  intros H He. unfold run_ssh_command. rewrite H. simpl.
  by rewrite (not_Exception_not_timeout e He), He.
Qed.

(** The four lookups of each of the three dictionaries. *)
Lemma completed_result_lookups result :
  completed_result result !! "success" =
    Some (VBool (returncode result =? 0)) /\
  completed_result result !! "stdout" =
    Some (VStr (strip (cp_stdout result))) /\
  completed_result result !! "stderr" =
    Some (VStr (strip (cp_stderr result))) /\
  completed_result result !! "returncode" = Some (VInt (returncode result)).
Proof. repeat split. Qed.

Lemma failure_result_lookups e :
  failure_result e !! "success" = Some (VBool false) /\
  failure_result e !! "stdout" = Some (VStr []) /\
  failure_result e !! "stderr" = Some (VStr (exc_str e)) /\
  failure_result e !! "returncode" = Some (VInt (-1)).
Proof. repeat split. Qed.

Lemma timeout_result_lookups :
  timeout_result !! "success" = Some (VBool false) /\
  timeout_result !! "stdout" = Some (VStr []) /\
  timeout_result !! "stderr" = Some (VStr (lit "Connection timed out.")) /\
  timeout_result !! "returncode" = Some (VInt (-1)).
Proof. repeat split. Qed.

Lemma dom_completed_result result :
  dom (completed_result result) = result_fields.
Proof.
  unfold completed_result, result_fields. rewrite !dom_insert_L. set_solver.
Qed.

Lemma dom_failure_result e : dom (failure_result e) = result_fields.
Proof.
  unfold failure_result, result_fields. rewrite !dom_insert_L. set_solver.
Qed.

Lemma dom_timeout_result : dom timeout_result = result_fields.
Proof.
  unfold timeout_result, result_fields. rewrite !dom_insert_L. set_solver.
Qed.

(** How a call ends, by what [subprocess.run] did. *)
Lemma run_cases host user command key_file :
  (exists result,
     subprocess_run (ssh_argv host user command key_file) 30 =
       Returned result /\
     run_ssh_command subprocess_run host user command key_file =
       Ret (completed_result result)) \/
  (exists e,
     subprocess_run (ssh_argv host user command key_file) 30 = Raised e /\
     isinstance e TimeoutExpired = true /\
     run_ssh_command subprocess_run host user command key_file =
       Ret timeout_result) \/
  (exists e,
     subprocess_run (ssh_argv host user command key_file) 30 = Raised e /\
     isinstance e TimeoutExpired = false /\ isinstance e Exception = true /\
     run_ssh_command subprocess_run host user command key_file =
       Ret (failure_result e)) \/
  (exists e,
     subprocess_run (ssh_argv host user command key_file) 30 = Raised e /\
     isinstance e Exception = false /\
     run_ssh_command subprocess_run host user command key_file = Raise e).
Proof.
  destruct (subprocess_run (ssh_argv host user command key_file) 30)
    as [result|e] eqn:Hrun.
  - left. exists result. eauto using run_completed.
  - destruct (isinstance e TimeoutExpired) eqn:Ht.
    + right; left. exists e. eauto using run_timeout.
    + destruct (isinstance e Exception) eqn:He.
      * right; right; left. exists e. eauto 6 using run_failure.
      * right; right; right. exists e. eauto using run_propagates.
Qed.

(** C1, as amended: when [subprocess.run] returns a completed process
    with exit code N (the SSH subprocess completed within the timeout
    and its captured output decoded as text), the returned result has
    exit_code N, and success is true exactly when N is 0. *)
Theorem run_ssh_command_exit_code host user command key_file result :
  subprocess_run (ssh_argv host user command key_file) 30 = Returned result ->
  exists (d : dict) (success : bool),
    run_ssh_command subprocess_run host user command key_file = Ret d /\
    d !! "returncode" = Some (VInt (returncode result)) /\
    d !! "success" = Some (VBool success) /\
    (success = true <-> returncode result = 0).
Proof.
  intros Hrun. exists (completed_result result), (returncode result =? 0).
  destruct (completed_result_lookups result) as (Hs & _ & _ & Hc).
  repeat split; auto using run_completed; apply Z.eqb_eq.
Qed.

(** C2: when the subprocess exceeds the 30-second bound, the result is
    exactly success false, exit_code -1, empty standard_output and
    standard_error "Connection timed out.". *)
Theorem run_ssh_command_timeout host user command key_file e :
  subprocess_run (ssh_argv host user command key_file) 30 = Raised e ->
  isinstance e TimeoutExpired = true ->
  run_ssh_command subprocess_run host user command key_file =
    Ret (list_to_map [ ("success", VBool false);
                       ("returncode", VInt (-1));
                       ("stdout", VStr (lit ""));
                       ("stderr", VStr (lit "Connection timed out.")) ]).
Proof.
  intros Hrun Ht. rewrite (run_timeout _ _ _ _ e Hrun Ht).
  reflexivity.
Qed.

(** C3: when spawning or running the subprocess raises an error other
    than a timeout, the result has success false, exit_code -1 and the
    stringified error as standard_error. *)
Theorem run_ssh_command_failure host user command key_file e :
  subprocess_run (ssh_argv host user command key_file) 30 = Raised e ->
  isinstance e Exception = true ->
  isinstance e TimeoutExpired = false ->
  exists d : dict,
    run_ssh_command subprocess_run host user command key_file = Ret d /\
    d !! "success" = Some (VBool false) /\
    d !! "returncode" = Some (VInt (-1)) /\
    d !! "stderr" = Some (VStr (exc_str e)).
Proof.
  intros Hrun He Ht. exists (failure_result e).
  destruct (failure_result_lookups e) as (Hs & _ & Herr & Hc).
  auto using run_failure.
Qed.

(** C4, as amended: when [subprocess.run] returns a completed process
    (the subprocess completed and both captured streams decoded as
    text), standard_output and standard_error are the captured stdout
    and stderr with leading and trailing whitespace stripped. *)
Theorem run_ssh_command_strips_output host user command key_file result :
  subprocess_run (ssh_argv host user command key_file) 30 = Returned result ->
  exists (d : dict) (out err : pystr),
    run_ssh_command subprocess_run host user command key_file = Ret d /\
    d !! "stdout" = Some (VStr out) /\
    d !! "stderr" = Some (VStr err) /\
    stripped_of (cp_stdout result) out /\
    stripped_of (cp_stderr result) err.
Proof.
  intros Hrun.
  exists (completed_result result),
    (strip (cp_stdout result)), (strip (cp_stderr result)).
  destruct (completed_result_lookups result) as (_ & Ho & He & _).
  auto 6 using run_completed, strip_stripped_of.
Qed.

(** C9, as amended: run_ssh_command returns a record with exactly the
    four fields and propagates nothing whenever [subprocess.run] returns
    or raises an exception that derives from [Exception]; the two
    handlers catch exactly those. An exception outside [Exception],
    such as [KeyboardInterrupt], propagates to the caller unchanged. *)
Theorem run_ssh_command_returns_or_propagates host user command key_file :
  (exists d : dict,
     run_ssh_command subprocess_run host user command key_file = Ret d /\
     dom d = result_fields /\
     forall e,
       subprocess_run (ssh_argv host user command key_file) 30 = Raised e ->
       isinstance e Exception = true) \/
  (exists e,
     subprocess_run (ssh_argv host user command key_file) 30 = Raised e /\
     isinstance e Exception = false /\
     run_ssh_command subprocess_run host user command key_file = Raise e).
Proof.
  destruct (run_cases host user command key_file)
    as [(result & Hrun & Hret) | [(e & Hrun & Ht & Hret) |
       [(e & Hrun & Ht & He & Hret) | (e & Hrun & He & Hret)]]].
  - left. exists (completed_result result).
    split; [exact Hret|]. split; [apply dom_completed_result|].
    intros e He. congruence.
  - left. exists timeout_result.
    split; [exact Hret|]. split; [apply dom_timeout_result|].
    intros e' He'. rewrite Hrun in He'. injection He' as <-.
    by apply timeout_is_Exception.
  - left. exists (failure_result e).
    split; [exact Hret|]. split; [apply dom_failure_result|].
    intros e' He'. rewrite Hrun in He'. by injection He' as <-.
  - right. exists e. auto.
Qed.

(** C10: every result that run_ssh_command returns, on every branch,
    satisfies success == (exit_code == 0). *)
Theorem run_ssh_command_success_iff_zero host user command key_file (d : dict) :
  run_ssh_command subprocess_run host user command key_file = Ret d ->
  exists (success : bool) (code : Z),
    d !! "success" = Some (VBool success) /\
    d !! "returncode" = Some (VInt code) /\
    success = (code =? 0).
Proof.
  intros Hd.
  destruct (run_cases host user command key_file)
    as [(result & _ & Hret) | [(e & _ & _ & Hret) |
       [(e & _ & _ & _ & Hret) | (e & _ & _ & Hret)]]];
    rewrite Hret in Hd; try discriminate; injection Hd as <-.
  - exists (returncode result =? 0), (returncode result). by repeat split.
  - exists false, (-1). by repeat split.
  - exists false, (-1). by repeat split.
Qed.

Local Open Scope py_scope.

(** The script on the success path: the banner, the success line and
    the captured output, and no call of [sys.exit]. *)
Lemma cli_main_success (args : namespace) (d : dict) (out : pyval)
    (before : stdout) :
  run_ssh_command subprocess_run (host args) (user args) (command args)
    (key args) = Ret d ->
  d !! "success" = Some (VBool true) ->
  d !! "stdout" = Some out ->
  cli_main subprocess_run args before =
    (Ret tt,
     before ++
     [lit "[TuringClaw] Connecting to " ++ user args ++ lit "@" ++
      host args ++ lit "..."] ++
     [lit "[SUCCESS] Command executed on " ++ host args ++ lit ":" ++ [10%N]] ++
     [str out]).
Proof.
  intros Hrun Hs Ho. unfold cli_main, bind, lift, print, getitem.
  rewrite Hrun, Hs. simpl. rewrite Ho. simpl.
  by rewrite <- !app_assoc.
Qed.

(** The script on the failure path: it ends in [sys.exit] with the
    "returncode" entry. *)
Lemma cli_main_error (args : namespace) (d : dict) (code out err : pyval)
    (before : stdout) :
  run_ssh_command subprocess_run (host args) (user args) (command args)
    (key args) = Ret d ->
  d !! "success" = Some (VBool false) ->
  d !! "returncode" = Some code ->
  d !! "stdout" = Some out ->
  d !! "stderr" = Some err ->
  cli_main subprocess_run args before =
    (Exit code,
     before ++
     [lit "[TuringClaw] Connecting to " ++ user args ++ lit "@" ++
      host args ++ lit "..."] ++
     [lit "[ERROR] Failed to execute command on " ++ host args ++
      lit " (Code: " ++ str code ++ lit "):" ++ [10%N]] ++
     (if truthy out then [lit "STDOUT: " ++ str out] else []) ++
     (if truthy err then [lit "STDERR: " ++ str err] else [])).
Proof.
  intros Hrun Hs Hc Ho He. unfold cli_main, bind, lift, print, getitem.
  rewrite Hrun, Hs. simpl. rewrite Hc, Ho, He. unfold sys_exit, ret.
  destruct (truthy out), (truthy err); simpl;
    by rewrite <- ?app_assoc, ?app_nil_r.
Qed.

(** An exception that run_ssh_command lets through ends the script. *)
Lemma cli_main_uncaught (args : namespace) (e : pyexc) (before : stdout) :
  run_ssh_command subprocess_run (host args) (user args) (command args)
    (key args) = Raise e ->
  cli_main subprocess_run args before =
    (Raise e,
     before ++
     [lit "[TuringClaw] Connecting to " ++ user args ++ lit "@" ++
      host args ++ lit "..."]).
Proof.
  intros Hrun. unfold cli_main, bind, lift, print. by rewrite Hrun.
Qed.

(** C6: when the result has success false the script exits through
    [sys.exit] with the captured exit_code, which is the remote command's
    code or -1 after a timeout or a spawn error; when success is true
    no exit call is made and the process ends normally with code 0. *)
Theorem cli_main_exit_code (args : namespace) (d : dict) :
  run_ssh_command subprocess_run (host args) (user args) (command args)
    (key args) = Ret d ->
  exists (success : bool) (code : Z),
    d !! "success" = Some (VBool success) /\
    d !! "returncode" = Some (VInt code) /\
    fst (cli_main subprocess_run args []) =
      (if success then Ret tt else Exit (VInt code)) /\
    status (run_script (cli_main subprocess_run args)) =
      (if success then 0 else code) /\
    (forall result,
       subprocess_run (ssh_argv (host args) (user args) (command args)
                         (key args)) 30 = Returned result ->
       code = returncode result) /\
    (forall e,
       subprocess_run (ssh_argv (host args) (user args) (command args)
                         (key args)) 30 = Raised e ->
       code = -1).
Proof.
  intros Hd.
  assert (Hfin : forall (success : bool) (code : Z) (out err : pyval),
    d !! "success" = Some (VBool success) ->
    d !! "returncode" = Some (VInt code) ->
    d !! "stdout" = Some out -> d !! "stderr" = Some err ->
    success = (code =? 0) ->
    fst (cli_main subprocess_run args []) =
      (if success then Ret tt else Exit (VInt code)) /\
    status (run_script (cli_main subprocess_run args)) =
      (if success then 0 else code)).
  { intros success code out err Hs Hc Ho He Hinv. unfold run_script.
    destruct success.
    - by rewrite (cli_main_success args d out [] Hd Hs Ho).
    - by rewrite
        (cli_main_error args d (VInt code) out err [] Hd Hs Hc Ho He). }
  destruct (run_cases (host args) (user args) (command args) (key args))
    as [(result & Hrun & Hret) | [(e & Hrun & _ & Hret) |
       [(e & Hrun & _ & _ & Hret) | (e & _ & _ & Hret)]]];
    rewrite Hret in Hd; try discriminate; injection Hd as <-.
  - exists (returncode result =? 0), (returncode result).
    destruct (completed_result_lookups result) as (Hs & Ho & He & Hc).
    destruct (Hfin _ _ _ _ Hs Hc Ho He eq_refl) as [H1 H2].
    repeat split; auto; intros ? H; rewrite Hrun in H; congruence.
  - exists false, (-1).
    destruct timeout_result_lookups as (Hs & Ho & He & Hc).
    destruct (Hfin _ _ _ _ Hs Hc Ho He eq_refl) as [H1 H2].
    repeat split; auto; intros ? H; rewrite Hrun in H; congruence.
  - exists false, (-1).
    destruct (failure_result_lookups e) as (Hs & Ho & He & Hc).
    destruct (Hfin _ _ _ _ Hs Hc Ho He eq_refl) as [H1 H2].
    repeat split; auto; intros ? H; rewrite Hrun in H; congruence.
Qed.

End WithSubprocess.

(** run_ssh_command asks the environment for exactly one thing: how the
    spawn of [ssh_argv] with a timeout of 30 seconds ends. *)
Lemma run_ssh_command_spawns (env1 env2 : list pystr -> Z -> run_outcome)
    host user command key_file :
  env1 (ssh_argv host user command key_file) 30 =
  env2 (ssh_argv host user command key_file) 30 ->
  run_ssh_command env1 host user command key_file =
  run_ssh_command env2 host user command key_file.
Proof. intros H. unfold run_ssh_command. by rewrite H. Qed.

(** C5, as the specification states it, fails for a key path that is the
    empty string: [if key_file:] takes it for absent, and no
    identity-file option is passed although a key path was supplied. *)
Lemma ssh_argv_empty_key_path :
  ssh_argv (lit "server1") (lit "root") (lit "uptime") (Some (lit "")) =
    [lit "ssh"; lit "-o"; lit "StrictHostKeyChecking=no";
     lit "-o"; lit "BatchMode=yes"; lit "root@server1"; lit "uptime"] /\
  spec_ssh_argv (lit "server1") (lit "root") (lit "uptime") (Some (lit "")) =
    [lit "ssh"; lit "-o"; lit "StrictHostKeyChecking=no";
     lit "-o"; lit "BatchMode=yes"; lit "-i"; lit "";
     lit "root@server1"; lit "uptime"] /\
  ssh_argv (lit "server1") (lit "root") (lit "uptime") (Some (lit "")) <>
  spec_ssh_argv (lit "server1") (lit "root") (lit "uptime") (Some (lit "")).
Proof. repeat split. discriminate. Qed.

(** C5, as amended: the invocation is the client with
    StrictHostKeyChecking=no and BatchMode=yes, then the identity-file
    option with the key path exactly when a non-empty key path is
    supplied ([None] and the empty string both leave it out), then
    user@host, then the command as the last argument; and this vector,
    with a timeout of 30, is what run_ssh_command runs. *)
Theorem ssh_argv_shape (host user command : pystr) (key_file : option pystr) :
  ssh_argv host user command key_file =
    [lit "ssh"; lit "-o"; lit "StrictHostKeyChecking=no";
     lit "-o"; lit "BatchMode=yes"] ++
    match key_file with
    | Some (c :: k) => [lit "-i"; c :: k]
    | Some [] | None => []
    end ++
    [user ++ lit "@" ++ host; command] /\
  (key_file <> Some [] ->
   ssh_argv host user command key_file =
   spec_ssh_argv host user command key_file) /\
  (forall env1 env2 : list pystr -> Z -> run_outcome,
   env1 (ssh_argv host user command key_file) 30 =
   env2 (ssh_argv host user command key_file) 30 ->
   run_ssh_command env1 host user command key_file =
   run_ssh_command env2 host user command key_file).
Proof.
  split; [|split].
  - by destruct key_file as [[|c k]|].
  - intros Hk. by destruct key_file as [[|c k]|].
  - intros env1 env2. apply run_ssh_command_spawns.
Qed.

Lemma ssh_argv_shape_witness :
  Some (lit "/root/.ssh/id_ed25519") <> Some [] /\
  ssh_argv (lit "server1") (lit "root") (lit "uptime")
    (Some (lit "/root/.ssh/id_ed25519")) =
    [lit "ssh"; lit "-o"; lit "StrictHostKeyChecking=no";
     lit "-o"; lit "BatchMode=yes"; lit "-i"; lit "/root/.ssh/id_ed25519";
     lit "root@server1"; lit "uptime"] /\
  ssh_argv (lit "server1") (lit "root") (lit "uptime")
    (Some (lit "/root/.ssh/id_ed25519")) =
  spec_ssh_argv (lit "server1") (lit "root") (lit "uptime")
    (Some (lit "/root/.ssh/id_ed25519")).
Proof.
  assert (Hk : Some (lit "/root/.ssh/id_ed25519") <> Some []) by discriminate.
  split; [exact Hk|]. split.
  - exact (proj1 (ssh_argv_shape (lit "server1") (lit "root") (lit "uptime")
                    (Some (lit "/root/.ssh/id_ed25519")))).
  - exact (proj1 (proj2 (ssh_argv_shape (lit "server1") (lit "root")
                           (lit "uptime")
                           (Some (lit "/root/.ssh/id_ed25519")))) Hk).
Defined.

(** C9, as the specification states it, fails when the user interrupts
    the wait for the SSH client: [KeyboardInterrupt] is no [Exception],
    neither handler catches it, and it reaches the caller. *)
Lemma run_ssh_command_interrupted :
  run_ssh_command (always (Raised (MkExc KeyboardInterrupt (lit ""))))
    (lit "server1") (lit "root") (lit "uptime") None =
    Raise (MkExc KeyboardInterrupt (lit "")) /\
  ~ (exists d : dict,
       run_ssh_command (always (Raised (MkExc KeyboardInterrupt (lit ""))))
         (lit "server1") (lit "root") (lit "uptime") None = Ret d).
Proof. split; [reflexivity|]. intros [d Hd]. discriminate Hd. Qed.

(** [subprocess.run] returns a completed process exactly when the
    client exited and both of its captured streams decode. *)
Lemma run_text_returned (decode : codec) (c : child_outcome)
    (result : completed_process) :
  run_text decode c = Returned result <->
  exists out err,
    c = Exited (returncode result) out err /\
    decode out = inl (cp_stdout result) /\
    decode err = inl (cp_stderr result).
Proof.
  split.
  - destruct c as [code out err| |e]; simpl; try discriminate.
    destruct (decode out) as [o|m] eqn:Ho; try discriminate.
    destruct (decode err) as [e|m] eqn:He; try discriminate.
    intros [= <-]. simpl. by exists out, err.
  - intros (out & err & -> & Ho & He). simpl. rewrite Ho, He.
    by destruct result.
Qed.

(** C1, as the specification states it, fails when the client exits
    with code 0 after writing bytes that do not decode as text:
    [subprocess.run] then raises [UnicodeDecodeError], the second
    handler takes over, and the result carries exit code -1 and
    success False although the subprocess completed with code 0. *)
Lemma run_ssh_command_undecodable_exit_code :
  (exists d : dict,
     run_ssh_command
       (always (run_text decode_ascii (Exited 0 [255%N] [])))
       (lit "server1") (lit "root") (lit "cat /bin/true") None = Ret d /\
     d !! "returncode" = Some (VInt (-1)) /\
     d !! "success" = Some (VBool false)) /\
  ~ (exists d : dict,
       run_ssh_command
         (always (run_text decode_ascii (Exited 0 [255%N] [])))
         (lit "server1") (lit "root") (lit "cat /bin/true") None = Ret d /\
       d !! "returncode" = Some (VInt 0)).
Proof.
  split.
  - eexists. split; [reflexivity|]. by split.
  - intros (d & Hd & Hcode). injection Hd as <-. discriminate Hcode.
Qed.

(** C4, as the specification states it, fails in the same situation:
    the client completes with code 0, its standard error is the text
    " warn ", but one undecodable byte on its standard output makes the
    result's standard_output empty and its standard_error the text of
    the decoding error, not "warn". *)
Lemma run_ssh_command_undecodable_streams :
  (exists d : dict,
     run_ssh_command
       (always (run_text decode_ascii (Exited 0 [255%N] (lit " warn "))))
       (lit "server1") (lit "root") (lit "cat /bin/true") None = Ret d /\
     d !! "stdout" = Some (VStr (lit "")) /\
     d !! "stderr" =
       Some (VStr (lit ("'ascii' codec can't decode byte 0xff in " ++
                        "position 0: ordinal not in range(128)")))) /\
  ~ (exists d : dict,
       run_ssh_command
         (always (run_text decode_ascii (Exited 0 [255%N] (lit " warn "))))
         (lit "server1") (lit "root") (lit "cat /bin/true") None = Ret d /\
       d !! "stderr" = Some (VStr (strip (lit " warn ")))).
Proof.
  split.
  - eexists. split; [reflexivity|]. by split.
  - intros (d & Hd & Herr). injection Hd as <-. discriminate Herr.
Qed.

(** The theorems above at concrete runs. *)

Lemma run_ssh_command_exit_code_witness :
  always (Returned (Completed 2 (lit "") (lit "No such file")))
    (ssh_argv (lit "server1") (lit "root") (lit "cat /x") None) 30 =
    Returned (Completed 2 (lit "") (lit "No such file")) /\
  exists (d : dict) (success : bool),
    run_ssh_command
      (always (Returned (Completed 2 (lit "") (lit "No such file"))))
      (lit "server1") (lit "root") (lit "cat /x") None = Ret d /\
    d !! "returncode" = Some (VInt 2) /\
    d !! "success" = Some (VBool success) /\
    (success = true <-> 2 = 0).
Proof.
  split; [reflexivity|].
  apply (run_ssh_command_exit_code
           (always (Returned (Completed 2 (lit "") (lit "No such file"))))
           (lit "server1") (lit "root") (lit "cat /x") None
           (Completed 2 (lit "") (lit "No such file"))).
  reflexivity.
Defined.

Lemma run_ssh_command_timeout_witness :
  isinstance (MkExc TimeoutExpired (lit "timed out after 30 seconds"))
    TimeoutExpired = true /\
  run_ssh_command
    (always (Raised (MkExc TimeoutExpired (lit "timed out after 30 seconds"))))
    (lit "server1") (lit "root") (lit "sleep 60") (Some (lit "/k")) =
    Ret (list_to_map [ ("success", VBool false);
                       ("returncode", VInt (-1));
                       ("stdout", VStr (lit ""));
                       ("stderr", VStr (lit "Connection timed out.")) ]).
Proof.
  split; [reflexivity|].
  apply (run_ssh_command_timeout
           (always (Raised (MkExc TimeoutExpired
                              (lit "timed out after 30 seconds"))))
           (lit "server1") (lit "root") (lit "sleep 60") (Some (lit "/k"))
           (MkExc TimeoutExpired (lit "timed out after 30 seconds")));
    reflexivity.
Defined.

Lemma run_ssh_command_failure_witness :
  isinstance (MkExc FileNotFoundError (lit "No such file or directory: 'ssh'"))
    Exception = true /\
  isinstance (MkExc FileNotFoundError (lit "No such file or directory: 'ssh'"))
    TimeoutExpired = false /\
  exists d : dict,
    run_ssh_command
      (always (Raised (MkExc FileNotFoundError
                         (lit "No such file or directory: 'ssh'"))))
      (lit "server1") (lit "root") (lit "uptime") None = Ret d /\
    d !! "success" = Some (VBool false) /\
    d !! "returncode" = Some (VInt (-1)) /\
    d !! "stderr" = Some (VStr (lit "No such file or directory: 'ssh'")).
Proof.
  split; [reflexivity|]. split; [reflexivity|].
  apply (run_ssh_command_failure
           (always (Raised (MkExc FileNotFoundError
                              (lit "No such file or directory: 'ssh'"))))
           (lit "server1") (lit "root") (lit "uptime") None
           (MkExc FileNotFoundError (lit "No such file or directory: 'ssh'")));
    reflexivity.
Defined.

Lemma run_ssh_command_strips_output_witness :
  exists (d : dict) (out err : pystr),
    run_ssh_command
      (always (Returned (Completed 0 (lit " up 10 days  ") (lit ""))))
      (lit "server1") (lit "root") (lit "uptime") None = Ret d /\
    d !! "stdout" = Some (VStr out) /\
    d !! "stderr" = Some (VStr err) /\
    stripped_of (lit " up 10 days  ") out /\
    stripped_of (lit "") err.
Proof.
  apply (run_ssh_command_strips_output
           (always (Returned (Completed 0 (lit " up 10 days  ") (lit ""))))
           (lit "server1") (lit "root") (lit "uptime") None
           (Completed 0 (lit " up 10 days  ") (lit ""))).
  reflexivity.
Defined.

Lemma run_ssh_command_success_iff_zero_witness :
  run_ssh_command
    (always (Raised (MkExc TimeoutExpired (lit "timed out after 30 seconds"))))
    (lit "server1") (lit "root") (lit "sleep 60") None = Ret timeout_result /\
  exists (success : bool) (code : Z),
    timeout_result !! "success" = Some (VBool success) /\
    timeout_result !! "returncode" = Some (VInt code) /\
    success = (code =? 0).
Proof.
  split; [reflexivity|].
  apply (run_ssh_command_success_iff_zero
           (always (Raised (MkExc TimeoutExpired
                              (lit "timed out after 30 seconds"))))
           (lit "server1") (lit "root") (lit "sleep 60") None timeout_result).
  reflexivity.
Defined.

Lemma cli_main_exit_code_witness :
  exists (success : bool) (code : Z),
    completed_result (Completed 3 (lit "") (lit "denied")) !! "success" =
      Some (VBool success) /\
    completed_result (Completed 3 (lit "") (lit "denied")) !! "returncode" =
      Some (VInt code) /\
    fst (cli_main (always (Returned (Completed 3 (lit "") (lit "denied"))))
           (Namespace (lit "server1") (lit "ls /root") (lit "guest") None) []) =
      (if success then Ret tt else Exit (VInt code)) /\
    status (run_script
              (cli_main
                 (always (Returned (Completed 3 (lit "") (lit "denied"))))
                 (Namespace (lit "server1") (lit "ls /root") (lit "guest")
                    None))) =
      (if success then 0 else code) /\
    (forall result,
       always (Returned (Completed 3 (lit "") (lit "denied")))
         (ssh_argv (lit "server1") (lit "guest") (lit "ls /root") None) 30 =
         Returned result ->
       code = returncode result) /\
    (forall e,
       always (Returned (Completed 3 (lit "") (lit "denied")))
         (ssh_argv (lit "server1") (lit "guest") (lit "ls /root") None) 30 =
         Raised e ->
       code = -1).
Proof.
  apply (cli_main_exit_code
           (always (Returned (Completed 3 (lit "") (lit "denied"))))
           (Namespace (lit "server1") (lit "ls /root") (lit "guest") None)
           (completed_result (Completed 3 (lit "") (lit "denied")))).
  reflexivity.
Defined.

End RemoteMgrSpec.

(* ===================================================================== *)
(** ** The mock responder *)
(* ===================================================================== *)

Module MockSshSpec.
Import MockSsh.

(** With fewer than three entries in [sys.argv] the script prints the
    usage text and leaves through [sys.exit(1)]. *)
Lemma main_usage (sys_argv : list pystr) (before : stdout) :
  (length sys_argv < 3)%nat ->
  main sys_argv before = (Exit (VInt 1), before ++ [usage]).
Proof.
  intros Hlen. unfold main, bind.
  by destruct (Nat.ltb_spec (length sys_argv) 3) as [_|Hge]; [|lia].
Qed.

(** With a host and a command it prints the two banners and one report
    and falls off the end of [main]. *)
Lemma main_reports (script host cmd : pystr) (rest : list pystr)
    (before : stdout) :
  main (script :: host :: cmd :: rest) before =
    (Ret tt,
     before ++
     [connection_banner host; execution_banner cmd;
      if bool_decide (cmd = lit "uptime") then uptime_report
      else generic_report]).
Proof.
  unfold main, bind, lift, index, print, ret. simpl.
  case_bool_decide; simpl; by rewrite <- !app_assoc.
Qed.

(** The canned uptime report mentions the load average. *)
Lemma uptime_report_load_average :
  exists pre post : pystr, uptime_report = pre ++ lit "load average" ++ post.
Proof.
  exists (lit " 10:00:00 up 10 days,  2:30,  1 user,  "),
         (lit ": 0.00, 0.01, 0.05").
  reflexivity.
Qed.

(** With at least two arguments the mock makes three [print] calls:
    the connection banner for the host, the execution banner for the
    command, then the canned uptime report (which contains
    "load average") when the command is "uptime" and "Command
    executed successfully." otherwise. *)
Lemma main_three_prints (sys_argv : list pystr) :
  (2 <= length (tail sys_argv))%nat ->
  exists host cmd third : pystr,
    sys_argv !! 1%nat = Some host /\
    sys_argv !! 2%nat = Some cmd /\
    printed (run_script (main sys_argv)) =
      [lit "[SSH Connected to " ++ host ++ lit "]";
       lit "[Executing]: " ++ cmd;
       third] /\
    rendered (printed (run_script (main sys_argv))) =
      (lit "[SSH Connected to " ++ host ++ lit "]") ++ [10%N] ++
      (lit "[Executing]: " ++ cmd) ++ [10%N] ++
      third ++ [10%N] /\
    (cmd = lit "uptime" ->
     third =
       lit (" 10:00:00 up 10 days,  2:30,  1 user,  " ++
            "load average: 0.00, 0.01, 0.05") /\
     exists pre post : pystr, third = pre ++ lit "load average" ++ post) /\
    (cmd <> lit "uptime" -> third = lit "Command executed successfully.") /\
    length (printed (run_script (main sys_argv))) = 3%nat.
Proof.
  intros Hlen.
  destruct sys_argv as [|script [|host [|cmd rest]]]; simpl in Hlen; try lia.
  exists host, cmd,
    (if bool_decide (cmd = lit "uptime") then uptime_report
     else generic_report).
  unfold run_script. rewrite main_reports. simpl.
  split; [reflexivity|]. split; [reflexivity|]. split; [reflexivity|].
  split.
  { unfold rendered, connection_banner, execution_banner. simpl.
    by rewrite app_nil_r, <- !app_assoc. }
  split; [|split; [|reflexivity]].
  - intros ->. simpl. split; [reflexivity|]. apply uptime_report_load_average.
  - intros Hne. by rewrite bool_decide_eq_false_2.
Qed.

(** C8: with fewer than two positional arguments the mock prints the
    usage text and the process exits with status 1; with two or more
    it exits with status 0. *)
Theorem main_exit_status (sys_argv : list pystr) :
  ((length (tail sys_argv) < 2)%nat ->
   run_script (main sys_argv) =
     Observed [lit "Usage: python mock_ssh.py <host> <cmd>"] 1) /\
  ((2 <= length (tail sys_argv))%nat ->
   status (run_script (main sys_argv)) = 0).
Proof.
  split; intros Hlen.
  - unfold run_script. rewrite main_usage; [reflexivity|].
    destruct sys_argv; simpl in *; lia.
  - destruct sys_argv as [|script [|host [|cmd rest]]]; simpl in Hlen; try lia.
    unfold run_script. by rewrite main_reports.
Qed.

Lemma main_exit_status_witness :
  ((length (tail [lit "mock_ssh.py"; lit "server1"]) < 2)%nat /\
   run_script (main [lit "mock_ssh.py"; lit "server1"]) =
     Observed [lit "Usage: python mock_ssh.py <host> <cmd>"] 1) /\
  ((2 <= length (tail [lit "mock_ssh.py"; lit "server1"; lit "ls -la";
                       lit "extra"]))%nat /\
   status (run_script (main [lit "mock_ssh.py"; lit "server1"; lit "ls -la";
                             lit "extra"])) = 0).
Proof.
  assert (H1 : (length (tail [lit "mock_ssh.py"; lit "server1"]) < 2)%nat)
    by (simpl; lia).
  assert (H2 : (2 <= length (tail [lit "mock_ssh.py"; lit "server1";
                                   lit "ls -la"; lit "extra"]))%nat)
    by (simpl; lia).
  split; split; [exact H1 | | exact H2 |].
  - exact (proj1 (main_exit_status [lit "mock_ssh.py"; lit "server1"]) H1).
  - exact (proj2 (main_exit_status [lit "mock_ssh.py"; lit "server1";
                                    lit "ls -la"; lit "extra"]) H2).
Defined.

End MockSshSpec.


(* ===================================================================== *)
(** ** More on [strip]: strings made of whitespace only *)
(* ===================================================================== *)

Section StripEmpty.

Lemma lstrip_all_space (s : pystr) :
  forallb isspace s = true -> lstrip s = [].
Proof.
  induction s as [|c s IH]; simpl; [reflexivity|].
  destruct (isspace c); simpl; [exact IH | discriminate].
Qed.

(** [s.strip()] is empty exactly when [s] holds nothing but whitespace. *)
Lemma strip_nil_iff (s : pystr) :
  strip s = [] <-> forallb isspace s = true.
Proof.
  split.
  - intros Hnil.
    destruct (strip_stripped_of s) as ((l & r & Hs & Hl & Hr) & _).
    rewrite Hnil in Hs. rewrite Hs. simpl.
    rewrite forallb_app. by rewrite Hl, Hr.
  - intros Hall. unfold strip. by rewrite (lstrip_all_space s Hall).
Qed.

(** [if s.strip():] *)
Lemma truthy_strip (s : pystr) :
  truthy (VStr (strip s)) = negb (forallb isspace s).
Proof.
  destruct (forallb isspace s) eqn:Hall; simpl.
  - apply strip_nil_iff in Hall. by rewrite Hall.
  - destruct (strip s) as [|c t] eqn:Hs; [|reflexivity].
    apply strip_nil_iff in Hs. congruence.
Qed.

Lemma truthy_str_nonempty (s : pystr) :
  truthy (VStr s) = negb (bool_decide (s = [])).
Proof. by destruct s. Qed.

End StripEmpty.

(* ===================================================================== *)
(** ** The remote manager's script, outcome by outcome *)
(* ===================================================================== *)

Module RemoteMgrScript.
Import RemoteMgr RemoteMgrSpec.

Section WithSubprocess.

Variable subprocess_run : list pystr -> Z -> run_outcome.
Variable args : namespace.

(** The spawn that the script makes. *)
Let spawn : run_outcome :=
  subprocess_run
    (ssh_argv (host args) (user args) (command args) (key args)) 30.

(** The first line of every run. *)
Let banner : pystr :=
  lit "[TuringClaw] Connecting to " ++ user args ++ lit "@" ++
  host args ++ lit "...".

(** The header of the failure report for an exit code. *)
Let failed (code : Z) : pystr :=
  lit "[ERROR] Failed to execute command on " ++ host args ++
  lit " (Code: " ++ str_of_int code ++ lit "):" ++ [10%N].

(** What the script does with standard output and how it ends, for
    each way the spawn can end. *)
Lemma cli_main_branches (before : stdout) :
  (exists result,
     spawn = Returned result /\ returncode result = 0 /\
     cli_main subprocess_run args before =
       (Ret tt,
        before ++
        [banner;
         lit "[SUCCESS] Command executed on " ++ host args ++ lit ":" ++
         [10%N];
         strip (cp_stdout result)])) \/
  (exists result,
     spawn = Returned result /\ returncode result <> 0 /\
     cli_main subprocess_run args before =
       (Exit (VInt (returncode result)),
        before ++
        [banner; failed (returncode result)] ++
        (if forallb isspace (cp_stdout result) then []
         else [lit "STDOUT: " ++ strip (cp_stdout result)]) ++
        (if forallb isspace (cp_stderr result) then []
         else [lit "STDERR: " ++ strip (cp_stderr result)]))) \/
  (exists e,
     spawn = Raised e /\ isinstance e TimeoutExpired = true /\
     cli_main subprocess_run args before =
       (Exit (VInt (-1)),
        before ++
        [banner; failed (-1); lit "STDERR: Connection timed out."])) \/
  (exists e,
     spawn = Raised e /\ isinstance e TimeoutExpired = false /\
     isinstance e Exception = true /\
     cli_main subprocess_run args before =
       (Exit (VInt (-1)),
        before ++
        [banner; failed (-1)] ++
        (if bool_decide (exc_str e = []) then []
         else [lit "STDERR: " ++ exc_str e]))) \/
  (exists e,
     spawn = Raised e /\ isinstance e Exception = false /\
     cli_main subprocess_run args before = (Raise e, before ++ [banner])).
Proof.
  destruct (run_cases subprocess_run (host args) (user args) (command args)
              (key args))
    as [(result & Hrun & Hret) | [(e & Hrun & Ht & Hret) |
       [(e & Hrun & Ht & He & Hret) | (e & Hrun & He & Hret)]]].
  - destruct (completed_result_lookups result) as (Hs & Ho & Herr & Hc).
    destruct (Z.eqb_spec (returncode result) 0) as [Hz|Hnz].
    + left. exists result. split; [exact Hrun|]. split; [exact Hz|].
      rewrite (cli_main_success subprocess_run args _ _ before Hret Hs Ho).
      reflexivity.
    + right; left. exists result. split; [exact Hrun|]. split; [exact Hnz|].
      rewrite (cli_main_error subprocess_run args _ _ _ _ before
                 Hret Hs Hc Ho Herr).
      rewrite !truthy_strip.
      destruct (forallb isspace (cp_stdout result)),
               (forallb isspace (cp_stderr result)); reflexivity.
  - right; right; left. exists e. split; [exact Hrun|]. split; [exact Ht|].
    destruct timeout_result_lookups as (Hs & Ho & Herr & Hc).
    rewrite (cli_main_error subprocess_run args _ _ _ _ before
               Hret Hs Hc Ho Herr).
    reflexivity.
  - right; right; right; left. exists e.
    split; [exact Hrun|]. split; [exact Ht|]. split; [exact He|].
    destruct (failure_result_lookups e) as (Hs & Ho & Herr & Hc).
    rewrite (cli_main_error subprocess_run args _ _ _ _ before
               Hret Hs Hc Ho Herr).
    rewrite (truthy_str_nonempty (exc_str e)).
    destruct (bool_decide (exc_str e = [])); reflexivity.
  - right; right; right; right. exists e.
    split; [exact Hrun|]. split; [exact He|].
    rewrite (cli_main_uncaught subprocess_run args e before Hret).
    reflexivity.
Qed.

(** Two descriptions of the same spawn agree. *)
Ltac same_spawn :=
  repeat match goal with
  | H : spawn = _ |- _ => unfold spawn in H
  end;
  repeat match goal with
  | H1 : subprocess_run ?a ?t = _, H2 : subprocess_run ?a ?t = _ |- _ =>
      rewrite H1 in H2; simplify_eq
  end.


(** X3: when [subprocess.run] returns a completed process with return
    code 0 (the client exited and its output decoded), the script prints the
    banner, the success header and the stripped standard output (an
    empty line when there is none), never the captured standard error,
    and ends with status 0. *)
Theorem cli_main_success_report (result : completed_process) :
  spawn = Returned result ->
  returncode result = 0 ->
  run_script (cli_main subprocess_run args) =
    Observed
      [banner;
       lit "[SUCCESS] Command executed on " ++ host args ++ lit ":" ++
       [10%N];
       strip (cp_stdout result)]
      0.
Proof.
  intros Hspawn Hzero. unfold run_script.
  destruct (cli_main_branches [])
    as [(result' & Hsp & Hz & Hm) | [(result' & Hsp & Hnz & Hm) |
       [(e & Hsp & _ & Hm) | [(e & Hsp & _ & _ & Hm) | (e & Hsp & _ & Hm)]]]];
    same_spawn; try contradiction.
  by rewrite Hm.
Qed.

(** X4: when [subprocess.run] returns a completed process with a
    non-zero return code (the client exited and its output decoded), the script
    prints the banner and the failure header with that code, then a
    STDOUT line if the captured output holds more than whitespace, then
    a STDERR line likewise, and exits with the code. *)
Theorem cli_main_failure_report (result : completed_process) :
  spawn = Returned result ->
  returncode result <> 0 ->
  run_script (cli_main subprocess_run args) =
    Observed
      ([banner; failed (returncode result)] ++
       (if forallb isspace (cp_stdout result) then []
        else [lit "STDOUT: " ++ strip (cp_stdout result)]) ++
       (if forallb isspace (cp_stderr result) then []
        else [lit "STDERR: " ++ strip (cp_stderr result)]))
      (returncode result).
Proof.
  intros Hspawn Hnonzero. unfold run_script.
  destruct (cli_main_branches [])
    as [(result' & Hsp & Hz & Hm) | [(result' & Hsp & Hnz & Hm) |
       [(e & Hsp & _ & Hm) | [(e & Hsp & _ & _ & Hm) | (e & Hsp & _ & Hm)]]]];
    same_spawn; try contradiction.
  by rewrite Hm.
Qed.

(** X5: after a timeout the script prints the banner, the failure
    header with code -1 and "STDERR: Connection timed out.", no STDOUT
    line, and exits with -1. *)
Theorem cli_main_timeout_report (e : pyexc) :
  spawn = Raised e ->
  isinstance e TimeoutExpired = true ->
  run_script (cli_main subprocess_run args) =
    Observed
      [banner; failed (-1); lit "STDERR: Connection timed out."]
      (-1).
Proof.
  intros Hspawn Htimeout. unfold run_script.
  destruct (cli_main_branches [])
    as [(result' & Hsp & Hz & Hm) | [(result' & Hsp & Hnz & Hm) |
       [(e' & Hsp & Ht & Hm) | [(e' & Hsp & Ht & _ & Hm) |
        (e' & Hsp & He & Hm)]]]];
    same_spawn; try congruence.
  - by rewrite Hm.
  - apply not_Exception_not_timeout in He. congruence.
Qed.

(** X6: after a spawn failure the script prints the banner, the failure
    header with code -1 and, unless the error's text is empty, a STDERR
    line with that text as it is (not stripped); it exits with -1. *)
Theorem cli_main_spawn_failure_report (e : pyexc) :
  spawn = Raised e ->
  isinstance e Exception = true ->
  isinstance e TimeoutExpired = false ->
  run_script (cli_main subprocess_run args) =
    Observed
      ([banner; failed (-1)] ++
       (if bool_decide (exc_str e = []) then []
        else [lit "STDERR: " ++ exc_str e]))
      (-1).
Proof.
  intros Hspawn Hexc Hnot. unfold run_script.
  destruct (cli_main_branches [])
    as [(result' & Hsp & Hz & Hm) | [(result' & Hsp & Hnz & Hm) |
       [(e' & Hsp & Ht & Hm) | [(e' & Hsp & Ht & _ & Hm) |
        (e' & Hsp & He & Hm)]]]];
    same_spawn; try congruence.
  by rewrite Hm.
Qed.

(** X8: in every result that run_ssh_command returns, on every branch,
    "stdout" and "stderr" are strings and "stdout" has no leading or
    trailing whitespace left: stripping it again changes nothing. *)
Theorem run_ssh_command_stdout_stripped host user command key_file (d : dict) :
  run_ssh_command subprocess_run host user command key_file = Ret d ->
  exists out err : pystr,
    d !! "stdout" = Some (VStr out) /\
    d !! "stderr" = Some (VStr err) /\
    strip out = out.
Proof.
  intros Hd.
  destruct (run_cases subprocess_run host user command key_file)
    as [(result & _ & Hret) | [(e & _ & _ & Hret) |
       [(e & _ & _ & _ & Hret) | (e & _ & _ & Hret)]]];
    rewrite Hret in Hd; try discriminate; injection Hd as <-.
  - exists (strip (cp_stdout result)), (strip (cp_stderr result)).
    split; [reflexivity|]. split; [reflexivity|]. apply strip_idempotent.
  - by exists [], (lit "Connection timed out.").
  - by exists [], (exc_str e).
Qed.

End WithSubprocess.

(** X9: the invocation determines the command, the user@host target
    and whether and which identity file is passed: two calls that build
    the same argument vector have the same command, the same target,
    and key paths that are both left out or are the same path. *)
Theorem ssh_argv_inj (host user command : pystr) (key_file : option pystr)
    (host' user' command' : pystr) (key_file' : option pystr) :
  ssh_argv host user command key_file =
  ssh_argv host' user' command' key_file' ->
  command = command' /\
  user ++ lit "@" ++ host = user' ++ lit "@" ++ host' /\
  truthy (of_optional key_file) = truthy (of_optional key_file') /\
  (truthy (of_optional key_file) = true -> key_file = key_file').
Proof.
  unfold ssh_argv.
  destruct key_file as [[|c k]|], key_file' as [[|c' k']|]; simpl;
    intros Heq; simplify_eq; repeat split; try discriminate; auto.
Qed.

Lemma ssh_argv_inj_witness :
  ssh_argv (lit "c") (lit "a@b") (lit "uptime") None =
  ssh_argv (lit "b@c") (lit "a") (lit "uptime") (Some (lit "")) /\
  lit "uptime" = lit "uptime" /\
  lit "a@b" ++ lit "@" ++ lit "c" = lit "a" ++ lit "@" ++ lit "b@c" /\
  truthy (of_optional None) = truthy (of_optional (Some (lit ""))) /\
  (truthy (of_optional None) = true -> None = Some (lit "")).
Proof.
  assert (Hsame :
    ssh_argv (lit "c") (lit "a@b") (lit "uptime") None =
    ssh_argv (lit "b@c") (lit "a") (lit "uptime") (Some (lit "")))
    by reflexivity.
  split; [exact Hsame|].
  exact (ssh_argv_inj (lit "c") (lit "a@b") (lit "uptime") None
           (lit "b@c") (lit "a") (lit "uptime") (Some (lit "")) Hsame).
Defined.

Lemma cli_main_success_report_witness :
  returncode (Completed 0 (lit " up 10 days  ") (lit "warning")) = 0 /\
  run_script
    (cli_main
       (always (Returned (Completed 0 (lit " up 10 days  ") (lit "warning"))))
       (Namespace (lit "server1") (lit "uptime") (lit "root") None)) =
    Observed
      [lit "[TuringClaw] Connecting to root@server1...";
       lit "[SUCCESS] Command executed on server1:" ++ [10%N];
       lit "up 10 days"]
      0.
Proof.
  split; [reflexivity|].
  apply (cli_main_success_report
           (always (Returned (Completed 0 (lit " up 10 days  ")
                                (lit "warning"))))
           (Namespace (lit "server1") (lit "uptime") (lit "root") None)
           (Completed 0 (lit " up 10 days  ") (lit "warning")));
    reflexivity.
Defined.

Lemma cli_main_failure_report_witness :
  returncode (Completed 127 (lit "  ") (lit "sh: nope: not found")) <> 0 /\
  run_script
    (cli_main
       (always (Returned (Completed 127 (lit "  ")
                            (lit "sh: nope: not found"))))
       (Namespace (lit "server1") (lit "nope") (lit "root") None)) =
    Observed
      [lit "[TuringClaw] Connecting to root@server1...";
       lit "[ERROR] Failed to execute command on server1 (Code: 127):" ++
       [10%N];
       lit "STDERR: sh: nope: not found"]
      127.
Proof.
  assert (Hnz : returncode (Completed 127 (lit "  ")
                              (lit "sh: nope: not found")) <> 0)
    by discriminate.
  split; [exact Hnz|].
  exact (cli_main_failure_report
           (always (Returned (Completed 127 (lit "  ")
                                (lit "sh: nope: not found"))))
           (Namespace (lit "server1") (lit "nope") (lit "root") None)
           (Completed 127 (lit "  ") (lit "sh: nope: not found"))
           eq_refl Hnz).
Defined.

Lemma cli_main_timeout_report_witness :
  isinstance (MkExc TimeoutExpired (lit "timed out after 30 seconds"))
    TimeoutExpired = true /\
  run_script
    (cli_main
       (always (Raised (MkExc TimeoutExpired
                          (lit "timed out after 30 seconds"))))
       (Namespace (lit "server1") (lit "sleep 60") (lit "root") None)) =
    Observed
      [lit "[TuringClaw] Connecting to root@server1...";
       lit "[ERROR] Failed to execute command on server1 (Code: -1):" ++
       [10%N];
       lit "STDERR: Connection timed out."]
      (-1).
Proof.
  split; [reflexivity|].
  apply (cli_main_timeout_report
           (always (Raised (MkExc TimeoutExpired
                              (lit "timed out after 30 seconds"))))
           (Namespace (lit "server1") (lit "sleep 60") (lit "root") None)
           (MkExc TimeoutExpired (lit "timed out after 30 seconds")));
    reflexivity.
Defined.

Lemma cli_main_spawn_failure_report_witness :
  isinstance (MkExc PermissionError (lit " denied ")) Exception = true /\
  isinstance (MkExc PermissionError (lit " denied ")) TimeoutExpired = false /\
  run_script
    (cli_main (always (Raised (MkExc PermissionError (lit " denied "))))
       (Namespace (lit "server1") (lit "uptime") (lit "root") None)) =
    Observed
      [lit "[TuringClaw] Connecting to root@server1...";
       lit "[ERROR] Failed to execute command on server1 (Code: -1):" ++
       [10%N];
       lit "STDERR:  denied "]
      (-1).
Proof.
  split; [reflexivity|]. split; [reflexivity|].
  apply (cli_main_spawn_failure_report
           (always (Raised (MkExc PermissionError (lit " denied "))))
           (Namespace (lit "server1") (lit "uptime") (lit "root") None)
           (MkExc PermissionError (lit " denied ")));
    reflexivity.
Defined.

Lemma run_ssh_command_stdout_stripped_witness :
  run_ssh_command
    (always (Returned (Completed 1 (lit "  partial ") (lit " oops "))))
    (lit "server1") (lit "root") (lit "uptime") None =
    Ret (completed_result (Completed 1 (lit "  partial ") (lit " oops "))) /\
  exists out err : pystr,
    completed_result (Completed 1 (lit "  partial ") (lit " oops "))
      !! "stdout" = Some (VStr out) /\
    completed_result (Completed 1 (lit "  partial ") (lit " oops "))
      !! "stderr" = Some (VStr err) /\
    strip out = out.
Proof.
  split; [reflexivity|].
  apply (run_ssh_command_stdout_stripped
           (always (Returned (Completed 1 (lit "  partial ") (lit " oops "))))
           (lit "server1") (lit "root") (lit "uptime") None).
  reflexivity.
Defined.

End RemoteMgrScript.

(* ===================================================================== *)
(** ** More on the mock responder *)
(* ===================================================================== *)

Module MockSshMore.
Import MockSsh MockSshSpec.

(** X11: the mock looks at the host and the command only: the script
    name and any further arguments change nothing of what is printed or
    of the exit status. *)
Theorem main_ignores_extra_arguments (script script' host cmd : pystr)
    (rest rest' : list pystr) :
  run_script (main (script :: host :: cmd :: rest)) =
  run_script (main (script' :: host :: cmd :: rest')).
Proof. unfold run_script. by rewrite !main_reports. Qed.

Lemma newlines_app (s t : pystr) :
  newlines (s ++ t) = (newlines s + newlines t)%nat.
Proof. apply count_occ_app. Qed.

Lemma rendered_cons (s : pystr) (out : stdout) :
  rendered (s :: out) = s ++ [10%N] ++ rendered out.
Proof. unfold rendered. cbn [List.map concat]. by rewrite <- app_assoc. Qed.

(** X12: the text written for a host and a command holds three line
    breaks plus those inside the host and the command: it is three
    physical lines exactly when neither argument contains a newline. *)
Theorem main_newline_count (script host cmd : pystr) (rest : list pystr) :
  newlines (rendered (printed (run_script
                                 (main (script :: host :: cmd :: rest))))) =
  (3 + newlines host + newlines cmd)%nat.
Proof.
  unfold run_script. rewrite main_reports. cbn [printed app].
  rewrite !rendered_cons. unfold connection_banner, execution_banner.
  rewrite !newlines_app.
  assert (Hthird :
    newlines (if bool_decide (cmd = lit "uptime") then uptime_report
              else generic_report) = 0%nat)
    by (case_bool_decide; reflexivity).
  rewrite Hthird.
  change (newlines (lit "[SSH Connected to ")) with 0%nat.
  change (newlines (lit "]")) with 0%nat.
  change (newlines (lit "[Executing]: ")) with 0%nat.
  change (newlines [10%N]) with 1%nat.
  change (newlines (rendered [])) with 0%nat.
  lia.
Qed.

(** The line breaks in what is written for a host and a command. *)
Lemma reports_newlines (host cmd : pystr) :
  newlines
    (rendered
       [connection_banner host; execution_banner cmd;
        if bool_decide (cmd = lit "uptime") then uptime_report
        else generic_report]) =
  (3 + newlines host + newlines cmd)%nat.
Proof.
  rewrite !rendered_cons. unfold connection_banner, execution_banner.
  rewrite !newlines_app.
  replace (newlines (if bool_decide (cmd = lit "uptime") then uptime_report
                     else generic_report)) with 0%nat
    by (case_bool_decide; reflexivity).
  change (newlines (lit "[SSH Connected to ")) with 0%nat.
  change (newlines (lit "]")) with 0%nat.
  change (newlines (lit "[Executing]: ")) with 0%nat.
  change (newlines [10%N]) with 1%nat.
  change (newlines (rendered [])) with 0%nat.
  lia.
Qed.

(** C7, as the specification states it, fails for a command that holds
    a newline: the mock still makes three [print] calls, but the
    execution banner spreads over two lines and four lines are written
    in all. *)
Lemma main_command_with_newline :
  printed (run_script
             (main [lit "mock_ssh.py"; lit "server1";
                    lit "ls" ++ [10%N] ++ lit "pwd"])) =
    [lit "[SSH Connected to server1]";
     lit "[Executing]: ls" ++ [10%N] ++ lit "pwd";
     lit "Command executed successfully."] /\
  newlines
    (rendered
       (printed (run_script
                   (main [lit "mock_ssh.py"; lit "server1";
                          lit "ls" ++ [10%N] ++ lit "pwd"])))) = 4%nat.
Proof. split; reflexivity. Qed.

(** C7, as amended: with at least two arguments the mock prints the
    connection banner for the host, then the execution banner for the
    command, then one more report, the canned uptime report (which
    contains "load average") if the command is "uptime" and "Command
    executed successfully." otherwise; when neither the host nor the
    command contains a newline this is a total of exactly three lines
    (in general, three plus the newlines inside the two arguments). *)
Theorem main_three_lines_without_newlines (sys_argv : list pystr) :
  (2 <= length (tail sys_argv))%nat ->
  exists host cmd third : pystr,
    sys_argv !! 1%nat = Some host /\
    sys_argv !! 2%nat = Some cmd /\
    printed (run_script (main sys_argv)) =
      [lit "[SSH Connected to " ++ host ++ lit "]";
       lit "[Executing]: " ++ cmd;
       third] /\
    (cmd = lit "uptime" ->
     third =
       lit (" 10:00:00 up 10 days,  2:30,  1 user,  " ++
            "load average: 0.00, 0.01, 0.05") /\
     exists pre post : pystr, third = pre ++ lit "load average" ++ post) /\
    (cmd <> lit "uptime" -> third = lit "Command executed successfully.") /\
    newlines (rendered (printed (run_script (main sys_argv)))) =
      (3 + newlines host + newlines cmd)%nat /\
    (newlines host = 0%nat -> newlines cmd = 0%nat ->
     newlines (rendered (printed (run_script (main sys_argv)))) = 3%nat).
Proof.
  intros Hlen.
  destruct (main_three_prints sys_argv Hlen)
    as (host & cmd & third & Hh & Hc & Hp & _ & Hup & Hgen & _).
  assert (Hcount :
    newlines (rendered (printed (run_script (main sys_argv)))) =
    (3 + newlines host + newlines cmd)%nat).
  { destruct sys_argv as [|script [|host' [|cmd' rest]]];
      simpl in Hlen; try lia.
    injection Hh as ->. injection Hc as ->.
    unfold run_script. rewrite main_reports. cbn [printed app].
    apply reports_newlines. }
  exists host, cmd, third.
  split; [exact Hh|]. split; [exact Hc|]. split; [exact Hp|].
  split; [exact Hup|]. split; [exact Hgen|]. split; [exact Hcount|].
  intros Hhost Hcmd. by rewrite Hcount, Hhost, Hcmd.
Qed.

Lemma main_three_lines_without_newlines_witness :
  (2 <= length (tail [lit "mock_ssh.py"; lit "server1"; lit "uptime"]))%nat /\
  exists host cmd third : pystr,
    [lit "mock_ssh.py"; lit "server1"; lit "uptime"] !! 1%nat = Some host /\
    [lit "mock_ssh.py"; lit "server1"; lit "uptime"] !! 2%nat = Some cmd /\
    printed (run_script
               (main [lit "mock_ssh.py"; lit "server1"; lit "uptime"])) =
      [lit "[SSH Connected to " ++ host ++ lit "]";
       lit "[Executing]: " ++ cmd;
       third] /\
    (cmd = lit "uptime" ->
     third =
       lit (" 10:00:00 up 10 days,  2:30,  1 user,  " ++
            "load average: 0.00, 0.01, 0.05") /\
     exists pre post : pystr, third = pre ++ lit "load average" ++ post) /\
    (cmd <> lit "uptime" -> third = lit "Command executed successfully.") /\
    newlines
      (rendered
         (printed (run_script
                     (main [lit "mock_ssh.py"; lit "server1";
                            lit "uptime"])))) =
      (3 + newlines host + newlines cmd)%nat /\
    (newlines host = 0%nat -> newlines cmd = 0%nat ->
     newlines
       (rendered
          (printed (run_script
                      (main [lit "mock_ssh.py"; lit "server1";
                             lit "uptime"])))) = 3%nat).
Proof.
  assert (Hlen :
    (2 <= length (tail [lit "mock_ssh.py"; lit "server1"; lit "uptime"]))%nat)
    by (simpl; lia).
  split; [exact Hlen|].
  exact (main_three_lines_without_newlines
           [lit "mock_ssh.py"; lit "server1"; lit "uptime"] Hlen).
Defined.

End MockSshMore.
